(** * crawlee: the home-page example (website/src/pages/home_page_example.py)

    The example is a script over the crawlee library: [main] builds a
    [PlaywrightCrawler], registers [request_handler] as default handler,
    runs the crawl, exports the dataset and reads it back.  All the work is
    done by awaited calls into the library, so the script is embedded as a
    coroutine over the signature of those calls: a tree whose nodes are the
    calls, in program order, and whose edges are the values the calls
    return.  A call either returns or raises; the script has no [try], so a
    raised exception ends the coroutine at that call. *)

From stdpp Require Import base option list gmap strings fin_maps.
From Stdlib Require Import ZArith Lia.

Local Open Scope string_scope.
Local Open Scope list_scope.

(** ** Python effects: awaited calls, exceptions, traces *)

Module Py.

(** An exception object: its class name and its message. *)
Record exn : Type := Exception { exn_class : string; exn_msg : string }.

(** What a call does: it returns a value or raises. *)
Inductive outcome (A : Type) : Type :=
| Returned (a : A)
| Raised (e : exn).
Arguments Returned {A} a.
Arguments Raised {A} e.

Definition is_returned {A} (o : outcome A) : bool :=
  match o with Returned _ => true | Raised _ => false end.

(** The calls a coroutine may await, and the type of what each returns. *)
Record signature : Type := Signature { op : Type; res : op -> Type }.

(** A coroutine without [try]: it returns, or awaits a call and goes on
    with the value the call returned. *)
Inductive coro (sig : signature) (R : Type) : Type :=
| Return (r : R)
| Await (o : op sig) (k : res sig o -> coro sig R).
Arguments Return {sig R} r.
Arguments Await {sig R} o k.

Fixpoint bind {sig A B} (m : coro sig A) (f : A -> coro sig B) : coro sig B :=
  match m with
  | Return a => f a
  | Await o k => Await o (fun x => bind (k x) f)
  end.

(** [call o]: the coroutine that makes the call [o] and returns its value. *)
Definition call {sig} (o : op sig) : coro sig (res sig o) := Await o Return.

(** One entry of a trace: the call made and how it ended. *)
Record event (sig : signature) : Type :=
  Ev { ev_op : op sig; ev_out : outcome (res sig ev_op) }.
Arguments Ev {sig} ev_op ev_out.
Arguments ev_op {sig} e.
Arguments ev_out {sig} e.

Definition ev_returned {sig} (e : event sig) : bool := is_returned (ev_out e).


Section Exec.
Context {sig : signature} {W : Type}.
(** The environment: how each call answers in a state of the world. *)
Variable perform : forall o : op sig, W -> outcome (res sig o) * W.

(** Running a coroutine: calls are made in program order; the first one
    that raises ends the run with that exception. *)
Fixpoint exec {R} (p : coro sig R) (w : W) : outcome R * W * list (event sig) :=
  match p with
  | Return r => (Returned r, w, [])
  | Await o k =>
      match perform o w with
      | (Returned x, w') =>
          let '(r, w'', t) := exec (k x) w' in (r, w'', Ev o (Returned x) :: t)
      | (Raised e, w') => (Raised e, w', [Ev o (Raised e)])
      end
  end.

(** The states of the world after each call of the run, oldest first. *)
Fixpoint worlds {R} (p : coro sig R) (w : W) : list W :=
  match p with
  | Return _ => []
  | Await o k =>
      match perform o w with
      | (Returned x, w') => w' :: worlds (k x) w'
      | (Raised _, w') => [w']
      end
  end.

Definition result {R} (p : coro sig R) (w : W) : outcome R := (exec p w).1.1.
Definition final {R} (p : coro sig R) (w : W) : W := (exec p w).1.2.
Definition trace {R} (p : coro sig R) (w : W) : list (event sig) := (exec p w).2.
End Exec.

End Py.

Import Py.

#[export] Instance coro_ret {sig} : MRet (coro sig) := fun _ r => Return r.
#[export] Instance coro_bind {sig} : MBind (coro sig) := fun _ _ f m => bind m f.

(** ** Python values used by the script *)

(** Values passed as keyword arguments. *)
Inductive pyval : Type :=
| PyInt (z : Z)
| PyBool (b : bool)
| PyStr (s : string).

(** A str is a [string]: one character of the [string] stands for one
    character of the str.  [s[:n]] is the first [n] characters of [s], or
    all of [s] when it has fewer. *)
Fixpoint slice_to (n : nat) (s : string) : string :=
  match n, s with
  | S n', String c s' => String c (slice_to n' s')
  | _, _ => EmptyString
  end.

(** An f-string, kept as its parts: literal text, a replacement field
    holding a str, a replacement field holding a list of dicts. *)
Inductive fpart : Type :=
| FLit (s : string)
| FStr (s : string)
| FItems (l : list (gmap string string)).

(** ** The library interface the script calls *)

Record Request : Type := { url : string }.

(** The plain attributes of the crawling context the handler reads; its
    methods are the operations of [ContextOp]. *)
Record PlaywrightCrawlingContext : Type := { request : Request }.

Inductive ContextOp : Type :=
| LogInfo (msg : list fpart)                 (* context.log.info(msg) *)
| EnqueueLinks                               (* context.enqueue_links() *)
| PageTitle                                  (* context.page.title() *)
| PageContent                                (* context.page.content() *)
| PushData (data : gmap string string).      (* context.push_data(data) *)

Definition ContextRes (o : ContextOp) : Type :=
  match o with
  | LogInfo _ => unit
  | EnqueueLinks => unit
  | PageTitle => string
  | PageContent => string
  | PushData _ => unit
  end.

Canonical Structure ContextSig : signature := Signature ContextOp ContextRes.

Definition Handler : Type := PlaywrightCrawlingContext -> coro ContextSig unit.

(** A crawler object, as a reference into the library's state. *)
Definition CrawlerRef : Type := nat.

Record FinalStatistics : Type := { requests_finished : nat; requests_failed : nat }.

Record DatasetItemsListPage : Type := { items : list (gmap string string) }.

Inductive CrawlerOp : Type :=
| NewPlaywrightCrawler (kwargs : gmap string pyval)      (* PlaywrightCrawler(k=v, ...) *)
| RouterDefaultHandler (c : CrawlerRef) (h : Handler)    (* c.router.default_handler(h) *)
| Run (c : CrawlerRef) (requests : list string)          (* c.run(requests) *)
| ExportData (c : CrawlerRef) (path : string)            (* c.export_data(path) *)
| GetData (c : CrawlerRef)                               (* c.get_data() *)
| CrawlerLogInfo (c : CrawlerRef) (msg : list fpart).    (* c.log.info(msg) *)

Definition CrawlerRes (o : CrawlerOp) : Type :=
  match o with
  | NewPlaywrightCrawler _ => CrawlerRef
  | RouterDefaultHandler _ _ => unit
  | Run _ _ => FinalStatistics
  | ExportData _ _ => unit
  | GetData _ => DatasetItemsListPage
  | CrawlerLogInfo _ _ => unit
  end.

Canonical Structure CrawlerSig : signature := Signature CrawlerOp CrawlerRes.

(** ** The script *)

(** The dict display of the handler. *)
Definition page_record (u title content : string) : gmap string string :=
  {[ "url" := u; "title" := title; "content" := slice_to 100 content ]}.

Definition request_handler : Handler := fun context =>
  call (LogInfo [FLit "Processing "; FStr (url (request context)); FLit " ..."]) ;;
  call EnqueueLinks ;;
  title ← call PageTitle ;
  content ← call PageContent ;
  let data := page_record (url (request context)) title content in
  call (PushData data).

(** The keyword arguments of the constructor call. *)
Definition crawler_kwargs : gmap string pyval :=
  {[ "max_requests_per_crawl" := PyInt 5;
     "headless" := PyBool false;
     "browser_type" := PyStr "firefox" ]}.

Definition main : coro CrawlerSig unit :=
  crawler ← call (NewPlaywrightCrawler crawler_kwargs) ;
  call (RouterDefaultHandler crawler request_handler) ;;
  call (Run crawler ["https://crawlee.dev"]) ;;
  call (ExportData crawler "results.json") ;;
  data ← call (GetData crawler) ;
  call (CrawlerLogInfo crawler [FLit "Extracted data: "; FItems (items data)]).

(** ** The crawlee library, as far as the script uses it

    The library is not part of the example's source.  What the example
    relies on is written down here as a small executable model: a crawler
    owns a request queue, a handler and a dataset; [run] opens at most
    [max_requests_per_crawl] requests, calls the handler once on every page
    it opens, and keeps crawling when a page cannot be opened or the
    handler raises; [export_data] writes the dataset to a file and
    [get_data] reads it back. *)

Module Crawlee.

(** Modelled from the spec: what the browser finds at a URL (the browser
    automation is the library's).  A page is served with its title, its
    content and the links on it, or it opens and then breaks, so that
    every call on it raises.  A URL the web does not map is unreachable. *)
Inductive Site : Type :=
| Serves (title content : string) (links : list string)
| Broken (e : exn).

(** Modelled from the spec: the configuration record of a crawler
    (request limit, headless flag, browser identifier). *)
Record Options : Type :=
  { max_requests_per_crawl : nat; headless : bool; browser_type : string }.

(** Modelled from the spec: the constructor reads the three configuration
    values from the keyword arguments; it accepts no other keyword. *)
Definition parse_kwargs (kw : gmap string pyval) : option Options :=
  match kw !! "max_requests_per_crawl", kw !! "headless", kw !! "browser_type" with
  | Some (PyInt n), Some (PyBool h), Some (PyStr b) =>
      if decide (size kw = 3 ∧ (0 ≤ n)%Z)
      then Some {| max_requests_per_crawl := Z.to_nat n; headless := h; browser_type := b |}
      else None
  | _, _, _ => None
  end.

(** Modelled from the spec: the state of one crawler.  [pending] is the
    request queue, [opened] the requests taken from it, [invoked] the
    pages the handler was called on, [failed] the requests that could not
    be opened or whose handler raised, [dataset] the output collection. *)
Record Crawler : Type :=
  { options : Options;
    default_handler : option Handler;
    pending : list string;
    opened : list string;
    invoked : list string;
    failed : list string;
    dataset : list (gmap string string) }.

(** Modelled from the spec: the library's world: the web it crawls, the
    crawlers built so far, the files written and the log. *)
Record World : Type :=
  { web : gmap string Site;
    crawlers : list Crawler;
    files : gmap string (list (gmap string string));
    log : list (list fpart) }.

(** Modelled from the spec: a crawler as the constructor leaves it. *)
Definition new_crawler (o : Options) : Crawler :=
  {| options := o; default_handler := None; pending := []; opened := [];
     invoked := []; failed := []; dataset := [] |}.

(** Modelled from the spec: registering the default handler. *)
Definition set_handler (h : Handler) (cr : Crawler) : Crawler :=
  {| options := options cr; default_handler := Some h; pending := pending cr;
     opened := opened cr; invoked := invoked cr; failed := failed cr;
     dataset := dataset cr |}.

(** Modelled from the spec: the request queue.  A request is queued unless
    its URL was queued before. *)
Definition enqueue (cr : Crawler) (u : string) : Crawler :=
  if decide (u ∈ opened cr ++ pending cr) then cr else
  {| options := options cr; default_handler := default_handler cr;
     pending := pending cr ++ [u]; opened := opened cr; invoked := invoked cr;
     failed := failed cr; dataset := dataset cr |}.

(** Modelled from the spec: queueing a list of requests, in order. *)
Definition enqueue_all (us : list string) (cr : Crawler) : Crawler :=
  foldl enqueue cr us.

(** Modelled from the spec: taking the oldest request from the queue. *)
Definition take_request (cr : Crawler) : option (string * Crawler) :=
  match pending cr with
  | [] => None
  | u :: q =>
      Some (u, {| options := options cr; default_handler := default_handler cr;
                  pending := q; opened := opened cr ++ [u]; invoked := invoked cr;
                  failed := failed cr; dataset := dataset cr |})
  end.

(** Modelled from the spec: the note that the handler is called on [u]. *)
Definition invoke (u : string) (cr : Crawler) : Crawler :=
  {| options := options cr; default_handler := default_handler cr;
     pending := pending cr; opened := opened cr; invoked := invoked cr ++ [u];
     failed := failed cr; dataset := dataset cr |}.

(** Modelled from the spec: the note that the request [u] failed. *)
Definition fail (u : string) (cr : Crawler) : Crawler :=
  {| options := options cr; default_handler := default_handler cr;
     pending := pending cr; opened := opened cr; invoked := invoked cr;
     failed := failed cr ++ [u]; dataset := dataset cr |}.

(** Modelled from the spec: appending a record to the output collection. *)
Definition push (d : gmap string string) (cr : Crawler) : Crawler :=
  {| options := options cr; default_handler := default_handler cr;
     pending := pending cr; opened := opened cr; invoked := invoked cr;
     failed := failed cr; dataset := dataset cr ++ [d] |}.

(** Modelled from the spec: the library's state, updated at one crawler,
    by one more crawler, by one file, by one log line. *)
Definition with_crawler (c : CrawlerRef) (f : Crawler -> Crawler) (w : World) : World :=
  {| web := web w; crawlers := alter f c (crawlers w); files := files w; log := log w |}.

(** Modelled from the spec: a new crawler gets the next reference. *)
Definition add_crawler (cr : Crawler) (w : World) : World :=
  {| web := web w; crawlers := crawlers w ++ [cr]; files := files w; log := log w |}.

(** Modelled from the spec: a file holds the records written to it. *)
Definition write_file (path : string) (d : list (gmap string string)) (w : World) : World :=
  {| web := web w; crawlers := crawlers w; files := <[path := d]> (files w); log := log w |}.

(** Modelled from the spec: the log, oldest line first. *)
Definition write_log (msg : list fpart) (w : World) : World :=
  {| web := web w; crawlers := crawlers w; files := files w; log := log w ++ [msg] |}.

(** Modelled from the spec: the context of one handler invocation, for
    crawler [c] on the page [site]. *)
Definition context_perform (c : CrawlerRef) (site : Site)
    (o : ContextOp) (w : World) : outcome (ContextRes o) * World :=
  match o return outcome (ContextRes o) * World with
  | LogInfo msg => (Returned (), write_log msg w)
  | EnqueueLinks =>
      match site with
      | Serves _ _ links => (Returned (), with_crawler c (enqueue_all links) w)
      | Broken e => (Raised e, w)
      end
  | PageTitle =>
      match site with
      | Serves title _ _ => (Returned title, w)
      | Broken e => (Raised e, w)
      end
  | PageContent =>
      match site with
      | Serves _ content _ => (Returned content, w)
      | Broken e => (Raised e, w)
      end
  | PushData d => (Returned (), with_crawler c (push d) w)
  end.

(** Modelled from the spec: the crawl.  Each round takes one request from
    the queue; an unreachable URL fails; on a page that opens the handler
    is called once, and the request fails when the handler raises.  The
    crawl goes on either way, for at most [budget] requests. *)
Fixpoint crawl (budget : nat) (c : CrawlerRef) (h : Handler) (w : World) : World :=
  match budget with
  | 0 => w
  | S budget' =>
      match crawlers w !! c ≫= take_request with
      | None => w
      | Some (u, cr) =>
          let w1 := with_crawler c (fun _ => cr) w in
          match web w !! u with
          | None => crawl budget' c h (with_crawler c (fail u) w1)
          | Some site =>
              let w2 := with_crawler c (invoke u) w1 in
              let '(o, w3, _) :=
                exec (context_perform c site) (h {| request := {| url := u |} |}) w2 in
              crawl budget' c h
                (if is_returned o then w3 else with_crawler c (fail u) w3)
          end
      end
  end.

(** Modelled from the spec: what [run] returns. *)
Definition statistics (cr : Crawler) : FinalStatistics :=
  {| requests_finished := length (opened cr) - length (failed cr);
     requests_failed := length (failed cr) |}.

(** Modelled from the spec: the exceptions the operations on crawlers
    raise: keyword arguments other than the three, a reference that is no
    crawler, a crawl without handler. *)
Definition TypeError : exn := Exception "TypeError" "unexpected keyword arguments".
Definition ReferenceError : exn := Exception "ReferenceError" "no such crawler".
Definition RuntimeError : exn := Exception "RuntimeError" "no default handler".

(** Modelled from the spec: the operations on crawlers. *)
Definition crawler_perform (o : CrawlerOp) (w : World) : outcome (CrawlerRes o) * World :=
  match o return outcome (CrawlerRes o) * World with
  | NewPlaywrightCrawler kw =>
      match parse_kwargs kw with
      | Some opts => (Returned (length (crawlers w)), add_crawler (new_crawler opts) w)
      | None => (Raised TypeError, w)
      end
  | RouterDefaultHandler c h =>
      match crawlers w !! c with
      | Some _ => (Returned (), with_crawler c (set_handler h) w)
      | None => (Raised ReferenceError, w)
      end
  | Run c requests =>
      match crawlers w !! c with
      | Some cr =>
          match default_handler cr with
          | Some h =>
              let w' := crawl (max_requests_per_crawl (options cr)) c h
                          (with_crawler c (enqueue_all requests) w) in
              (match crawlers w' !! c with
               | Some cr' => Returned (statistics cr')
               | None => Raised ReferenceError
               end, w')
          | None => (Raised RuntimeError, w)
          end
      | None => (Raised ReferenceError, w)
      end
  | ExportData c path =>
      match crawlers w !! c with
      | Some cr => (Returned (), write_file path (dataset cr) w)
      | None => (Raised ReferenceError, w)
      end
  | GetData c =>
      match crawlers w !! c with
      | Some cr => (Returned {| items := dataset cr |}, w)
      | None => (Raised ReferenceError, w)
      end
  | CrawlerLogInfo c msg =>
      match crawlers w !! c with
      | Some _ => (Returned (), write_log msg w)
      | None => (Raised ReferenceError, w)
      end
  end.

(** Modelled from the spec: the world before the script starts: nothing
    built, written or logged. *)
Definition fresh (pages : gmap string Site) : World :=
  {| web := pages; crawlers := []; files := ∅; log := [] |}.

End Crawlee.

(** The configuration the script asks for. *)
Definition main_options : Crawlee.Options :=
  {| Crawlee.max_requests_per_crawl := 5;
     Crawlee.headless := false;
     Crawlee.browser_type := "firefox" |}.

(** The configuration records of the crawlers of a world. *)
Definition configs (w : Crawlee.World) : list Crawlee.Options :=
  Crawlee.options <$> Crawlee.crawlers w.

(** The pages a crawler got to open: the opened requests the web answers. *)
Definition crawled (pages : gmap string Crawlee.Site) (cr : Crawlee.Crawler) : list string :=
  filter (fun u => is_Some (pages !! u)) (Crawlee.opened cr).

(** The bookkeeping of a crawler is in order: no request is queued or
    opened twice, the handler was called on the crawled pages, once each
    and in the order they were opened, and the dataset has at most one
    record per call of the handler. *)
Definition tidy (pages : gmap string Crawlee.Site) (cr : Crawlee.Crawler) : Prop :=
  NoDup (Crawlee.opened cr ++ Crawlee.pending cr) /\
  Crawlee.invoked cr = crawled pages cr /\
  length (Crawlee.dataset cr) <= length (Crawlee.invoked cr).

(** The crawler of the script when the crawl starts: the handler is
    registered and the seed is queued. *)
Definition seeded : Crawlee.Crawler :=
  {| Crawlee.options := main_options;
     Crawlee.default_handler := Some request_handler;
     Crawlee.pending := ["https://crawlee.dev"];
     Crawlee.opened := [];
     Crawlee.invoked := [];
     Crawlee.failed := [];
     Crawlee.dataset := [] |}.

(** The crawler of the script once the handler is registered. *)
Definition wired : Crawlee.Crawler :=
  Crawlee.set_handler request_handler (Crawlee.new_crawler main_options).

(** The world when the crawl of the script starts. *)
Definition started (pages : gmap string Crawlee.Site) : Crawlee.World :=
  {| Crawlee.web := pages; Crawlee.crawlers := [seeded];
     Crawlee.files := ∅; Crawlee.log := [] |}.

(** ** Scenarios: concrete contexts, libraries and webs to run the script on *)

Module Scenario.

(** A page that answers every call: a fixed title and a fixed content. *)
Definition static_page (title content : string)
    (o : ContextOp) (w : unit) : outcome (ContextRes o) * unit :=
  match o return outcome (ContextRes o) * unit with
  | LogInfo _ => (Returned (), w)
  | EnqueueLinks => (Returned (), w)
  | PageTitle => (Returned title, w)
  | PageContent => (Returned content, w)
  | PushData _ => (Returned (), w)
  end.

Definition TargetClosedError : exn :=
  Exception "TargetClosedError" "Target page, context or browser has been closed".

(** A page that was closed under the handler: logging works, every call
    that needs the page raises. *)
Definition closed_page (o : ContextOp) (w : unit) : outcome (ContextRes o) * unit :=
  match o return outcome (ContextRes o) * unit with
  | LogInfo _ => (Returned (), w)
  | _ => (Raised TargetClosedError, w)
  end.

Definition home : PlaywrightCrawlingContext :=
  {| request := {| url := "https://crawlee.dev" |} |}.

(** A content of 138 characters. *)
Definition long_content : string :=
  "<!DOCTYPE html><html lang=en><head><meta charset=utf-8><title>Crawlee</title>" +:+
  "</head><body><a href=/docs>Docs</a><p>Hello</p></body></html>".



Definition PageCrash : exn := Exception "Error" "Page crashed".

(** A small web: the home page links to the documentation page, which
    breaks when opened, to itself, and to a blog that is not there. *)
Definition small_web : gmap string Crawlee.Site :=
  {[ "https://crawlee.dev" :=
       Crawlee.Serves "Crawlee" long_content
         ["https://crawlee.dev/docs"; "https://crawlee.dev"; "https://crawlee.dev/blog"];
     "https://crawlee.dev/docs" := Crawlee.Broken PageCrash ]}.


End Scenario.

(** ** Reading traces *)

(** The records submitted in a handler run. *)
Definition pushed (t : list (event ContextSig)) : list (gmap string string) :=
  omap (fun e => match ev_op e with PushData d => Some d | _ => None end) t.

(** The operations delegated to the crawling library; logging is not one. *)
Definition delegated (o : ContextOp) : bool :=
  match o with LogInfo _ => false | _ => true end.

Definition delegated_ops (t : list (event ContextSig)) : list ContextOp :=
  filter (fun o => delegated o = true) (ev_op <$> t).

(** Every call up to the submission returned. *)
Definition reaches_submission (t : list (event ContextSig)) : bool :=
  forallb (fun e => ev_returned e || match ev_op e with PushData _ => true | _ => false end) t.

(** The steps of [main]. *)
Inductive step : Type := Construct | Register | RunCrawl | Export | ReadBack | Report.

Definition step_of (o : CrawlerOp) : step :=
  match o with
  | NewPlaywrightCrawler _ => Construct
  | RouterDefaultHandler _ _ => Register
  | Run _ _ => RunCrawl
  | ExportData _ _ => Export
  | GetData _ => ReadBack
  | CrawlerLogInfo _ _ => Report
  end.

Definition steps (t : list (event CrawlerSig)) : list step := (step_of ∘ ev_op) <$> t.


(** The crawler a constructor call returned. *)
Definition built_by (e : event CrawlerSig) : option CrawlerRef :=
  match e with
  | Ev o out =>
      match o return outcome (CrawlerRes o) -> option CrawlerRef with
      | NewPlaywrightCrawler _ =>
          fun out => match out with Returned c => Some c | Raised _ => None end
      | _ => fun _ => None
      end out
  end.

(** The crawlers built in a run of [main]. *)
Definition built (t : list (event CrawlerSig)) : list CrawlerRef := omap built_by t.

(** The keyword arguments of the constructor calls in a run of [main]. *)
Definition constructed (t : list (event CrawlerSig)) : list (gmap string pyval) :=
  omap (fun e => match ev_op e with NewPlaywrightCrawler kw => Some kw | _ => None end) t.

(** The crawler an operation is called on; the constructor has none. *)
Definition receiver (o : CrawlerOp) : option CrawlerRef :=
  match o with
  | NewPlaywrightCrawler _ => None
  | RouterDefaultHandler c _ => Some c
  | Run c _ => Some c
  | ExportData c _ => Some c
  | GetData c => Some c
  | CrawlerLogInfo c _ => Some c
  end.

(** The page of data a [get_data] call returned. *)
Definition read_by (e : event CrawlerSig) : option DatasetItemsListPage :=
  match e with
  | Ev o out =>
      match o return outcome (CrawlerRes o) -> option DatasetItemsListPage with
      | GetData _ =>
          fun out => match out with Returned d => Some d | Raised _ => None end
      | _ => fun _ => None
      end out
  end.

(** The pages of data read back in a run of [main]. *)
Definition read_back (t : list (event CrawlerSig)) : list DatasetItemsListPage :=
  omap read_by t.

(** The messages [main] logged in a run. *)
Definition reported (t : list (event CrawlerSig)) : list (list fpart) :=
  omap (fun e => match ev_op e with CrawlerLogInfo _ msg => Some msg | _ => None end) t.

(** ** The runs of the handler *)

(** The message the handler logs first. *)
Definition processing (context : PlaywrightCrawlingContext) : list fpart :=
  [FLit "Processing "; FStr (url (request context)); FLit " ..."].

(** The shapes a run of [request_handler] can have: it stops at the first
    call that raises, or makes its five calls and returns. *)
Inductive handler_run (context : PlaywrightCrawlingContext) :
    outcome unit -> list (event ContextSig) -> Prop :=
| log_raised e :
    handler_run context (Raised e)
      [Ev (LogInfo (processing context)) (Raised e)]
| enqueue_raised e :
    handler_run context (Raised e)
      [Ev (LogInfo (processing context)) (Returned ());
       Ev EnqueueLinks (Raised e)]
| title_raised e :
    handler_run context (Raised e)
      [Ev (LogInfo (processing context)) (Returned ());
       Ev EnqueueLinks (Returned ());
       Ev PageTitle (Raised e)]
| content_raised title e :
    handler_run context (Raised e)
      [Ev (LogInfo (processing context)) (Returned ());
       Ev EnqueueLinks (Returned ());
       Ev PageTitle (Returned title);
       Ev PageContent (Raised e)]
| push_raised title content e :
    handler_run context (Raised e)
      [Ev (LogInfo (processing context)) (Returned ());
       Ev EnqueueLinks (Returned ());
       Ev PageTitle (Returned title);
       Ev PageContent (Returned content);
       Ev (PushData (page_record (url (request context)) title content)) (Raised e)]
| handler_returned title content :
    handler_run context (Returned ())
      [Ev (LogInfo (processing context)) (Returned ());
       Ev EnqueueLinks (Returned ());
       Ev PageTitle (Returned title);
       Ev PageContent (Returned content);
       Ev (PushData (page_record (url (request context)) title content)) (Returned ())].

(** ** The runs of main *)

Definition seeds : list string := ["https://crawlee.dev"].

(** The message [main] logs last. *)
Definition extracted (data : DatasetItemsListPage) : list fpart :=
  [FLit "Extracted data: "; FItems (items data)].

(** The shapes a run of [main] can have: it stops at the first call that
    raises, or makes its six calls and returns. *)
Inductive main_run : outcome unit -> list (event CrawlerSig) -> Prop :=
| construct_raised e :
    main_run (Raised e)
      [Ev (NewPlaywrightCrawler crawler_kwargs) (Raised e)]
| register_raised crawler e :
    main_run (Raised e)
      [Ev (NewPlaywrightCrawler crawler_kwargs) (Returned crawler);
       Ev (RouterDefaultHandler crawler request_handler) (Raised e)]
| run_raised crawler e :
    main_run (Raised e)
      [Ev (NewPlaywrightCrawler crawler_kwargs) (Returned crawler);
       Ev (RouterDefaultHandler crawler request_handler) (Returned ());
       Ev (Run crawler seeds) (Raised e)]
| export_raised crawler stats e :
    main_run (Raised e)
      [Ev (NewPlaywrightCrawler crawler_kwargs) (Returned crawler);
       Ev (RouterDefaultHandler crawler request_handler) (Returned ());
       Ev (Run crawler seeds) (Returned stats);
       Ev (ExportData crawler "results.json") (Raised e)]
| read_raised crawler stats e :
    main_run (Raised e)
      [Ev (NewPlaywrightCrawler crawler_kwargs) (Returned crawler);
       Ev (RouterDefaultHandler crawler request_handler) (Returned ());
       Ev (Run crawler seeds) (Returned stats);
       Ev (ExportData crawler "results.json") (Returned ());
       Ev (GetData crawler) (Raised e)]
| report_raised crawler stats data e :
    main_run (Raised e)
      [Ev (NewPlaywrightCrawler crawler_kwargs) (Returned crawler);
       Ev (RouterDefaultHandler crawler request_handler) (Returned ());
       Ev (Run crawler seeds) (Returned stats);
       Ev (ExportData crawler "results.json") (Returned ());
       Ev (GetData crawler) (Returned data);
       Ev (CrawlerLogInfo crawler (extracted data)) (Raised e)]
| main_returned crawler stats data :
    main_run (Returned ())
      [Ev (NewPlaywrightCrawler crawler_kwargs) (Returned crawler);
       Ev (RouterDefaultHandler crawler request_handler) (Returned ());
       Ev (Run crawler seeds) (Returned stats);
       Ev (ExportData crawler "results.json") (Returned ());
       Ev (GetData crawler) (Returned data);
       Ev (CrawlerLogInfo crawler (extracted data)) (Returned ())].

(** ** Facts about runs of any coroutine *)

Section ExecFacts.
Context {sig : signature} {W : Type}.
Variable perform : forall o : op sig, W -> outcome (res sig o) * W.

Lemma exec_await_returned {R} o (k : res sig o -> coro sig R) w x w' :
  perform o w = (Returned x, w') ->
  exec perform (Await o k) w =
    ((exec perform (k x) w').1.1, (exec perform (k x) w').1.2,
     Ev o (Returned x) :: (exec perform (k x) w').2).
Proof.
  intros Hp. cbn [exec]. rewrite Hp.
  destruct (exec perform (k x) w') as [[r w''] t]. reflexivity.
Qed.

Lemma exec_await_raised {R} o (k : res sig o -> coro sig R) w e w' :
  perform o w = (Raised e, w') ->
  exec perform (Await o k) w = (Raised e, w', [Ev o (Raised e)]).
Proof. intros Hp. cbn [exec]. rewrite Hp. reflexivity. Qed.



(** What every call keeps, the run keeps, in every state it goes through. *)
Lemma worlds_invariant {R} (P : W -> Prop) (p : coro sig R) w :
  (forall o w0, P w0 -> P (perform o w0).2) ->
  P w -> Forall P (worlds perform p w) /\ P (final perform p w).
Proof.
  intros Hstep. unfold final. revert w.
  induction p as [r | o k IH]; intros w Hw.
  - cbn. split; [constructor | exact Hw].
  - pose proof (Hstep o w Hw) as Hw'.
    destruct (perform o w) as [[x | e'] w'] eqn:Hp; cbn in Hw'.
    + rewrite (exec_await_returned _ _ _ _ _ Hp). cbn [worlds]. rewrite Hp. cbn.
      destruct (IH x w' Hw') as [Hall Hfin]. split; [constructor; assumption | exact Hfin].
    + rewrite (exec_await_raised _ _ _ _ _ Hp). cbn [worlds]. rewrite Hp. cbn.
      split; [repeat constructor; assumption | exact Hw'].
Qed.
(** One state of the world is recorded for each call made. *)
Lemma worlds_length {R} (p : coro sig R) w :
  length (worlds perform p w) = length (trace perform p w).
Proof.
  unfold trace. revert w. induction p as [r | o k IH]; intros w; [reflexivity |].
  destruct (perform o w) as [[x | e'] w'] eqn:Hp.
  - rewrite (exec_await_returned _ _ _ _ _ Hp). cbn [worlds]. rewrite Hp. cbn.
    now rewrite IH.
  - rewrite (exec_await_raised _ _ _ _ _ Hp). cbn [worlds]. now rewrite Hp.
Qed.
End ExecFacts.

Section HandlerRuns.
Context {W : Type}.
Variable perform : forall o : ContextOp, W -> outcome (ContextRes o) * W.

Lemma handler_runs context w :
  handler_run context (result perform (request_handler context) w)
                      (trace perform (request_handler context) w).
Proof.
  unfold result, trace, request_handler, processing.
  cbn [exec mbind coro_bind bind call].
  destruct (perform (LogInfo _) w) as [[[] | e] w1]; [| apply log_raised].
  destruct (perform EnqueueLinks w1) as [[[] | e] w2]; [| apply enqueue_raised].
  destruct (perform PageTitle w2) as [[title | e] w3]; [| apply title_raised].
  destruct (perform PageContent w3) as [[content | e] w4]; [| apply content_raised].
  destruct (perform (PushData _) w4) as [[[] | e] w5]; [| apply push_raised].
  apply handler_returned.
Qed.
End HandlerRuns.

Section MainRuns.
Context {W : Type}.
Variable perform : forall o : CrawlerOp, W -> outcome (CrawlerRes o) * W.

Lemma main_runs w : main_run (result perform main w) (trace perform main w).
Proof.
  unfold result, trace, main, seeds, extracted.
  cbn [exec mbind coro_bind bind call].
  destruct (perform (NewPlaywrightCrawler _) w) as [[crawler | e] w1];
    [| apply construct_raised].
  destruct (perform (RouterDefaultHandler _ _) w1) as [[[] | e] w2];
    [| apply register_raised].
  destruct (perform (Run _ _) w2) as [[stats | e] w3]; [| apply run_raised].
  destruct (perform (ExportData _ _) w3) as [[[] | e] w4]; [| apply export_raised].
  destruct (perform (GetData _) w4) as [[data | e] w5]; [| apply read_raised].
  destruct (perform (CrawlerLogInfo _ _) w5) as [[[] | e] w6]; [| apply report_raised].
  apply main_returned.
Qed.
End MainRuns.

(** ** The slice [s[:n]] *)

Lemma slice_to_length n s : String.length (slice_to n s) = Nat.min n (String.length s).
Proof.
  revert s. induction n as [| n IH]; intros [| c s]; cbn; try reflexivity.
  now rewrite IH.
Qed.

Lemma slice_to_short n s : String.length s <= n -> slice_to n s = s.
Proof.
  revert s. induction n as [| n IH]; intros [| c s] Hlen; cbn in *; try reflexivity.
  - lia.
  - rewrite IH; [reflexivity | lia].
Qed.

Lemma slice_to_prefix n s : exists rest, s = slice_to n s +:+ rest.
Proof.
  revert s. induction n as [| n IH]; intros s.
  - exists s. now destruct s.
  - destruct s as [| c s]; [now exists EmptyString |].
    destruct (IH s) as [rest Hrest]. exists rest.
    change (String c s = String c (slice_to n s +:+ rest)). now rewrite <- Hrest.
Qed.

Example slice_to_cuts : slice_to 3 "crawlee" = "cra".
Proof. reflexivity. Qed.

Example slice_to_keeps : slice_to 100 "crawlee" = "crawlee".
Proof. reflexivity. Qed.

Example long_content_is_cut :
  String.length Scenario.long_content = 138 /\
  String.length (slice_to 100 Scenario.long_content) = 100.
Proof. split; reflexivity. Qed.

(** ** The record the handler builds *)

Lemma page_record_url u title content : page_record u title content !! "url" = Some u.
Proof. reflexivity. Qed.

Lemma page_record_title u title content : page_record u title content !! "title" = Some title.
Proof. reflexivity. Qed.

Lemma page_record_content u title content :
  page_record u title content !! "content" = Some (slice_to 100 content).
Proof. reflexivity. Qed.

Lemma page_record_dom u title content :
  dom (page_record u title content) = ({[ "url"; "title"; "content" ]} : gset string).
Proof. unfold page_record. rewrite !dom_insert_L, dom_singleton_L. set_solver. Qed.

Lemma page_record_size u title content : size (page_record u title content) = 3.
Proof. reflexivity. Qed.

(** ** The handler: the record, the calls and their order *)

Example handler_on_static_page :
  result (Scenario.static_page "Crawlee" "<html></html>") (request_handler Scenario.home) ()
    = Returned () /\
  pushed (trace (Scenario.static_page "Crawlee" "<html></html>")
                (request_handler Scenario.home) ())
    = [page_record "https://crawlee.dev" "Crawlee" "<html></html>"].
Proof. split; reflexivity. Qed.

Example handler_on_closed_page :
  result Scenario.closed_page (request_handler Scenario.home) ()
    = Raised Scenario.TargetClosedError /\
  (ev_op <$> trace Scenario.closed_page (request_handler Scenario.home) ())
    = [LogInfo (processing Scenario.home); EnqueueLinks].
Proof. split; reflexivity. Qed.

Section HandlerClaims.
Context {W : Type}.
Variable perform : forall o : ContextOp, W -> outcome (ContextRes o) * W.

(** In any context an invocation submits no record or one. *)
Lemma pushed_at_most_one context w :
  length (pushed (trace perform (request_handler context) w)) <= 1.
Proof. destruct (handler_runs perform context w); cbn; lia. Qed.

(** A submitted record is the one built from the title and the content
    the page returned in this invocation. *)
Lemma pushed_record context w d :
  d ∈ pushed (trace perform (request_handler context) w) ->
  exists title content,
    Ev PageTitle (Returned title) ∈ trace perform (request_handler context) w /\
    Ev PageContent (Returned content) ∈ trace perform (request_handler context) w /\
    d = page_record (url (request context)) title content.
Proof.
  intros Hd.
  destruct (handler_runs perform context w); cbn in Hd;
    try (apply elem_of_nil in Hd; contradiction);
    apply list_elem_of_singleton in Hd as ->;
    exists title, content; repeat split; set_solver.
Qed.
End HandlerClaims.

(** C1 (as amended).  An invocation of the request handler in which every
    call before the submission returns submits exactly one record; that
    record is a mapping with exactly the three fields url, title and
    content, holding the request's url, the title the page returned and the
    first 100 characters of the content the page returned. *)
Theorem request_handler_submits_one_record
    {W : Type} (perform : forall o : ContextOp, W -> outcome (ContextRes o) * W)
    (context : PlaywrightCrawlingContext) (w : W) :
  reaches_submission (trace perform (request_handler context) w) = true ->
  exists title content data,
    pushed (trace perform (request_handler context) w) = [data] /\
    Ev PageTitle (Returned title) ∈ trace perform (request_handler context) w /\
    Ev PageContent (Returned content) ∈ trace perform (request_handler context) w /\
    dom data = ({[ "url"; "title"; "content" ]} : gset string) /\
    size data = 3 /\
    data !! "url" = Some (url (request context)) /\
    data !! "title" = Some title /\
    data !! "content" = Some (slice_to 100 content).
Proof.
  intros Hreach.
  destruct (handler_runs perform context w); cbn in Hreach; try discriminate Hreach;
    exists title, content, (page_record (url (request context)) title content);
    (split; [reflexivity |]);
    (split; [set_solver |]);
    (split; [set_solver |]);
    (split; [apply page_record_dom |]);
    repeat split.
Qed.

Lemma request_handler_submits_one_record_witness :
  exists title content data,
    pushed (trace (Scenario.static_page "Crawlee" "<!DOCTYPE html>")
                  (request_handler Scenario.home) ()) = [data] /\
    Ev PageTitle (Returned title) ∈
      trace (Scenario.static_page "Crawlee" "<!DOCTYPE html>")
            (request_handler Scenario.home) () /\
    Ev PageContent (Returned content) ∈
      trace (Scenario.static_page "Crawlee" "<!DOCTYPE html>")
            (request_handler Scenario.home) () /\
    dom data = ({[ "url"; "title"; "content" ]} : gset string) /\
    size data = 3 /\
    data !! "url" = Some "https://crawlee.dev" /\
    data !! "title" = Some title /\
    data !! "content" = Some (slice_to 100 content).
Proof.
  apply (request_handler_submits_one_record
           (Scenario.static_page "Crawlee" "<!DOCTYPE html>") Scenario.home ()).
  reflexivity.
Defined.

(** C1, as first stated, fails: on a page that was closed the call
    [enqueue_links] raises and the invocation submits no record. *)
Lemma closed_page_submits_nothing :
  pushed (trace Scenario.closed_page (request_handler Scenario.home) ()) = [] /\
  ~ (exists data,
       pushed (trace Scenario.closed_page (request_handler Scenario.home) ()) = [data]).
Proof. split; [reflexivity |]. intros [data Hd]. discriminate Hd. Qed.

(** C2 (as amended).  In every invocation the calls of the handler are an
    initial part of the sequence: log, enqueue links, page title, page
    content, push data.  In an invocation in which no call raises the
    handler makes, after the log call, exactly the three operations link
    enqueueing, title retrieval and content retrieval, followed by exactly
    one record submission, in that order. *)
Theorem request_handler_call_order
    {W : Type} (perform : forall o : ContextOp, W -> outcome (ContextRes o) * W)
    (context : PlaywrightCrawlingContext) (w : W) :
  (exists title content,
     (ev_op <$> trace perform (request_handler context) w) `prefix_of`
       [LogInfo (processing context); EnqueueLinks; PageTitle; PageContent;
        PushData (page_record (url (request context)) title content)]) /\
  (forallb ev_returned (trace perform (request_handler context) w) = true ->
   exists title content,
     trace perform (request_handler context) w =
       [Ev (LogInfo (processing context)) (Returned ());
        Ev EnqueueLinks (Returned ());
        Ev PageTitle (Returned title);
        Ev PageContent (Returned content);
        Ev (PushData (page_record (url (request context)) title content)) (Returned ())] /\
     delegated_ops (trace perform (request_handler context) w) =
       [EnqueueLinks; PageTitle; PageContent;
        PushData (page_record (url (request context)) title content)]).
Proof.
  split.
  - destruct (handler_runs perform context w) as [e | e | e | t e | t c e | t c].
    + exists EmptyString, EmptyString. now eexists [_; _; _; _].
    + exists EmptyString, EmptyString. now eexists [_; _; _].
    + exists EmptyString, EmptyString. now eexists [_; _].
    + exists t, EmptyString. now eexists [_].
    + exists t, c. now exists [].
    + exists t, c. now exists [].
  - intros Hall.
    destruct (handler_runs perform context w); cbn in Hall; try discriminate Hall.
    exists title, content. split; reflexivity.
Qed.

Lemma request_handler_call_order_witness :
  exists title content,
    trace (Scenario.static_page "Crawlee" "<!DOCTYPE html>")
          (request_handler Scenario.home) () =
      [Ev (LogInfo (processing Scenario.home)) (Returned ());
       Ev EnqueueLinks (Returned ());
       Ev PageTitle (Returned title);
       Ev PageContent (Returned content);
       Ev (PushData (page_record "https://crawlee.dev" title content)) (Returned ())] /\
    delegated_ops (trace (Scenario.static_page "Crawlee" "<!DOCTYPE html>")
                         (request_handler Scenario.home) ()) =
      [EnqueueLinks; PageTitle; PageContent;
       PushData (page_record "https://crawlee.dev" title content)].
Proof.
  apply (proj2 (request_handler_call_order
                  (Scenario.static_page "Crawlee" "<!DOCTYPE html>") Scenario.home ())).
  reflexivity.
Defined.

(** C2, as first stated, fails: on a page that was closed the handler makes
    one delegated call, [enqueue_links], which raises; the title, the
    content and the submission never happen. *)
Lemma closed_page_stops_at_enqueue :
  delegated_ops (trace Scenario.closed_page (request_handler Scenario.home) ()) =
    [EnqueueLinks] /\
  ~ (exists data,
       delegated_ops (trace Scenario.closed_page (request_handler Scenario.home) ()) =
         [EnqueueLinks; PageTitle; PageContent; PushData data]).
Proof. split; [reflexivity |]. intros [data Hd]. discriminate Hd. Qed.

(** C10.  The content field of every record the handler submits is the
    first-100-characters prefix of the content the page returned: it has at
    most 100 characters, the content starts with it, and it is the whole
    content when that has 100 characters or fewer. *)
Theorem submitted_content_is_truncated
    {W : Type} (perform : forall o : ContextOp, W -> outcome (ContextRes o) * W)
    (context : PlaywrightCrawlingContext) (w : W) (data : gmap string string) :
  data ∈ pushed (trace perform (request_handler context) w) ->
  exists content field,
    Ev PageContent (Returned content) ∈ trace perform (request_handler context) w /\
    data !! "content" = Some field /\
    field = slice_to 100 content /\
    String.length field <= 100 /\
    String.length field = Nat.min 100 (String.length content) /\
    (exists rest, content = field +:+ rest) /\
    (String.length content <= 100 -> field = content).
Proof.
  intros Hd.
  destruct (pushed_record perform context w data Hd) as (title & content & _ & Hc & ->).
  exists content, (slice_to 100 content).
  split; [exact Hc |].
  split; [apply page_record_content |].
  split; [reflexivity |].
  split; [rewrite slice_to_length; lia |].
  split; [apply slice_to_length |].
  split; [apply slice_to_prefix | apply slice_to_short].
Qed.

Lemma submitted_content_is_truncated_witness :
  exists content field,
    Ev PageContent (Returned content) ∈
      trace (Scenario.static_page "Crawlee" Scenario.long_content)
            (request_handler Scenario.home) () /\
    page_record "https://crawlee.dev" "Crawlee" Scenario.long_content !! "content" =
      Some field /\
    field = slice_to 100 content /\
    String.length field <= 100 /\
    String.length field = Nat.min 100 (String.length content) /\
    (exists rest, content = field +:+ rest) /\
    (String.length content <= 100 -> field = content).
Proof.
  apply (submitted_content_is_truncated
           (Scenario.static_page "Crawlee" Scenario.long_content) Scenario.home ()
           (page_record "https://crawlee.dev" "Crawlee" Scenario.long_content)).
  vm_compute. constructor.
Defined.

(** ** main: its steps, the constructor call and the registration *)

Section MainFacts.
Context {W : Type}.
Variable perform : forall o : CrawlerOp, W -> outcome (CrawlerRes o) * W.

(** A later call of [main] is made only after the earlier ones returned. *)
Lemma main_calls_wait w i j ev :
  trace perform main w !! i = Some ev -> j < i ->
  exists ev', trace perform main w !! j = Some ev' /\ ev_returned ev' = true.
Proof.
  intros Hi Hj.
  destruct (main_runs perform w);
    destruct i as [| [| [| [| [| [| i]]]]]]; cbn in Hi; try discriminate Hi;
    destruct j as [| [| [| [| [| j]]]]]; try lia;
    (eexists; split; reflexivity).
Qed.

(** The step at each position of a run of [main]. *)
Lemma main_step_at w i ev :
  trace perform main w !! i = Some ev ->
  [Construct; Register; RunCrawl; Export; ReadBack; Report] !! i = Some (step_of (ev_op ev)).
Proof.
  intros Hi.
  destruct (main_runs perform w);
    destruct i as [| [| [| [| [| [| i]]]]]]; cbn in Hi; try discriminate Hi;
    injection Hi as <-; reflexivity.
Qed.
End MainFacts.

(** C3.  The calls of [main] are made strictly in sequence: construct the
    crawler, register the handler, run the crawl, export the data, read the
    data back (and then report it).  Every run is an initial part of that
    sequence, a call is made only after all earlier calls have returned, so
    the export begins only after the run has returned, and a run of [main]
    that returns has made all the steps. *)
Theorem main_steps_in_sequence
    {W : Type} (perform : forall o : CrawlerOp, W -> outcome (CrawlerRes o) * W) (w : W) :
  steps (trace perform main w) `prefix_of`
    [Construct; Register; RunCrawl; Export; ReadBack; Report] /\
  (forall i j ev, trace perform main w !! i = Some ev -> j < i ->
     exists ev', trace perform main w !! j = Some ev' /\ ev_returned ev' = true) /\
  (forall i ev, trace perform main w !! i = Some ev -> step_of (ev_op ev) = Export ->
     exists j run, j < i /\ trace perform main w !! j = Some run /\
       ev_op run = Run (default (0 : CrawlerRef) (head (built (trace perform main w)))) seeds /\
       ev_returned run = true) /\
  (result perform main w = Returned () ->
     steps (trace perform main w) =
       [Construct; Register; RunCrawl; Export; ReadBack; Report]).
Proof.
  split; [| split; [| split]].
  - destruct (main_runs perform w); cbn.
    + now eexists [_; _; _; _; _].
    + now eexists [_; _; _; _].
    + now eexists [_; _; _].
    + now eexists [_; _].
    + now eexists [_].
    + now exists [].
    + now exists [].
  - intros i j ev Hi Hj. exact (main_calls_wait perform w i j ev Hi Hj).
  - intros i ev Hi Hexp.
    pose proof (main_step_at perform w i ev Hi) as Hstep. rewrite Hexp in Hstep.
    destruct i as [| [| [| [| [| [| i]]]]]]; try discriminate Hstep.
    exists 2.
    destruct (main_runs perform w); cbn in Hi; try discriminate Hi;
      (eexists; split; [lia | split; [reflexivity | split; reflexivity]]).
  - intros Hres. destruct (main_runs perform w); try discriminate Hres. reflexivity.
Qed.

Lemma main_steps_in_sequence_witness :
  steps (trace Crawlee.crawler_perform main (Crawlee.fresh Scenario.small_web)) =
    [Construct; Register; RunCrawl; Export; ReadBack; Report] /\
  exists j run, j < 3 /\
    trace Crawlee.crawler_perform main (Crawlee.fresh Scenario.small_web) !! j = Some run /\
    ev_op run = Run 0 seeds /\ ev_returned run = true.
Proof.
  pose proof (main_steps_in_sequence Crawlee.crawler_perform
                (Crawlee.fresh Scenario.small_web)) as (_ & _ & Hexport & Hall).
  split.
  - apply Hall. vm_compute. reflexivity.
  - apply (Hexport 3 (Ev (ExportData 0 "results.json") (Returned ()))).
    + vm_compute. reflexivity.
    + reflexivity.
Defined.

(** C5.  The crawler is constructed with exactly three configuration
    values: in every run the one constructor call, the first call of
    [main], is given the keyword arguments max_requests_per_crawl = 5,
    headless = False and browser_type = 'firefox', and no others. *)
Theorem crawler_constructed_with_three_values
    {W : Type} (perform : forall o : CrawlerOp, W -> outcome (CrawlerRes o) * W) (w : W) :
  constructed (trace perform main w) = [crawler_kwargs] /\
  ev_op <$> head (trace perform main w) = Some (NewPlaywrightCrawler crawler_kwargs) /\
  dom crawler_kwargs =
    ({[ "max_requests_per_crawl"; "headless"; "browser_type" ]} : gset string) /\
  size crawler_kwargs = 3 /\
  crawler_kwargs !! "max_requests_per_crawl" = Some (PyInt 5) /\
  crawler_kwargs !! "headless" = Some (PyBool false) /\
  crawler_kwargs !! "browser_type" = Some (PyStr "firefox").
Proof.
  split; [destruct (main_runs perform w); reflexivity |].
  split; [destruct (main_runs perform w); reflexivity |].
  split.
  - unfold crawler_kwargs. rewrite !dom_insert_L, dom_singleton_L. set_solver.
  - repeat split.
Qed.


(** ** The library model: what its operations change *)

Module CrawleeFacts.
Import Crawlee.

Lemma lookup_with_crawler c f w :
  crawlers (with_crawler c f w) !! c = f <$> crawlers w !! c.
Proof. apply list_lookup_alter_eq. Qed.

Lemma configs_with_crawler c f w :
  (forall cr, crawlers w !! c = Some cr -> options (f cr) = options cr) ->
  configs (with_crawler c f w) = configs w.
Proof.
  unfold configs, with_crawler. cbn [crawlers].
  generalize (crawlers w). intros l. revert c.
  induction l as [| x l IH]; intros [| c] Hf; cbn; [reflexivity | reflexivity | |].
  - now rewrite (Hf x eq_refl).
  - f_equal. apply IH. intros cr Hcr. now apply Hf.
Qed.

Lemma enqueue_fields cr u :
  options (enqueue cr u) = options cr /\
  default_handler (enqueue cr u) = default_handler cr /\
  opened (enqueue cr u) = opened cr /\
  invoked (enqueue cr u) = invoked cr /\
  failed (enqueue cr u) = failed cr /\
  dataset (enqueue cr u) = dataset cr.
Proof. unfold enqueue. case_decide; repeat split. Qed.

Lemma enqueue_all_fields us cr :
  options (enqueue_all us cr) = options cr /\
  default_handler (enqueue_all us cr) = default_handler cr /\
  opened (enqueue_all us cr) = opened cr /\
  invoked (enqueue_all us cr) = invoked cr /\
  failed (enqueue_all us cr) = failed cr /\
  dataset (enqueue_all us cr) = dataset cr.
Proof.
  unfold enqueue_all. revert cr.
  induction us as [| u us IH]; intros cr; cbn; [repeat split |].
  destruct (IH (enqueue cr u)) as (-> & -> & -> & -> & -> & ->).
  apply enqueue_fields.
Qed.

(** No call of a handler touches a configuration record. *)
Lemma context_perform_configs c site o w :
  configs (context_perform c site o w).2 = configs w.
Proof.
  destruct o, site; cbn; try reflexivity;
    apply configs_with_crawler; intros cr _; try reflexivity.
  apply enqueue_all_fields.
Qed.

Lemma handler_configs {R} c site (p : coro ContextSig R) w :
  Forall (fun w' => configs w' = configs w) (worlds (context_perform c site) p w) /\
  configs (final (context_perform c site) p w) = configs w.
Proof.
  apply (worlds_invariant (context_perform c site) (fun w' => configs w' = configs w));
    [| reflexivity].
  intros o w0 Hw0. now rewrite context_perform_configs.
Qed.

Lemma take_request_fields cr u cr' :
  take_request cr = Some (u, cr') ->
  options cr' = options cr /\ default_handler cr' = default_handler cr /\
  pending cr = u :: pending cr' /\ opened cr' = opened cr ++ [u] /\
  invoked cr' = invoked cr /\ failed cr' = failed cr /\ dataset cr' = dataset cr.
Proof.
  unfold take_request. destruct (pending cr) as [| u' q] eqn:Hq; [discriminate |].
  intros [= <- <-]. cbn. repeat split.
Qed.

(** The crawl leaves the configuration records alone, whatever the handler. *)
Lemma crawl_configs budget c h w : configs (crawl budget c h w) = configs w.
Proof.
  revert w. induction budget as [| budget IH]; intros w; [reflexivity |].
  cbn [crawl].
  destruct (crawlers w !! c ≫= take_request) as [[u cr] |] eqn:Htake; [| reflexivity].
  apply bind_Some in Htake as (cr0 & Hcr0 & Htake).
  apply take_request_fields in Htake as (Hopt & _).
  assert (configs (with_crawler c (fun _ => cr) w) = configs w) as Hw1.
  { apply configs_with_crawler. intros cr1 Hcr1. congruence. }
  destruct (web w !! u) as [site |].
  - pose proof (handler_configs c site (h {| request := {| url := u |} |})
                  (with_crawler c (invoke u) (with_crawler c (fun _ => cr) w)))
      as [_ Hfin].
    unfold final in Hfin.
    destruct (exec _ _ _) as [[o w3] t]. cbn [fst snd] in Hfin.
    rewrite IH.
    assert (configs w3 = configs w) as Hw3.
    { rewrite Hfin, configs_with_crawler by (intros; reflexivity). exact Hw1. }
    destruct (is_returned o); [exact Hw3 |].
    rewrite configs_with_crawler by (intros; reflexivity). exact Hw3.
  - rewrite IH, configs_with_crawler by (intros; reflexivity). exact Hw1.
Qed.

(** Only the constructor adds a configuration record; no operation
    changes one. *)
Lemma crawler_perform_configs o w :
  step_of o <> Construct -> configs (crawler_perform o w).2 = configs w.
Proof.
  intros Hno. destruct o as [kw | c h | c rs | c path | c | c msg]; cbn;
    [contradiction | | | | |]; destruct (crawlers w !! c) as [cr |]; try reflexivity.
  - apply configs_with_crawler. intros; reflexivity.
  - destruct (default_handler cr); [| reflexivity]. cbn.
    rewrite crawl_configs. apply configs_with_crawler. intros. apply enqueue_all_fields.
Qed.
Lemma exec_eta {sig W R} (perform : forall o : op sig, W -> outcome (res sig o) * W)
    (p : coro sig R) w :
  exec perform p w = (result perform p w, final perform p w, trace perform p w).
Proof. unfold result, final, trace. now destruct (exec perform p w) as [[r w'] t]. Qed.

(** The handler of the script on a page that is served, and on one that
    breaks. *)
Lemma handler_on_served c title content links context w :
  result (context_perform c (Serves title content links)) (request_handler context) w =
    Returned () /\
  final (context_perform c (Serves title content links)) (request_handler context) w =
    with_crawler c (push (page_record (url (request context)) title content))
      (with_crawler c (enqueue_all links) (write_log (processing context) w)).
Proof. split; reflexivity. Qed.

Lemma handler_on_broken c e context w :
  result (context_perform c (Broken e)) (request_handler context) w = Raised e /\
  final (context_perform c (Broken e)) (request_handler context) w =
    write_log (processing context) w.
Proof. split; reflexivity. Qed.

Lemma enqueue_nodup cr u :
  NoDup (opened cr ++ pending cr) ->
  NoDup (opened (enqueue cr u) ++ pending (enqueue cr u)).
Proof.
  intros Hnd. unfold enqueue. case_decide as Hin; [exact Hnd |]. cbn.
  rewrite app_assoc. apply NoDup_app. split; [exact Hnd |].
  split; [| apply NoDup_singleton].
  intros x Hx Hxu. apply list_elem_of_singleton in Hxu as ->. contradiction.
Qed.

Lemma enqueue_all_nodup us cr :
  NoDup (opened cr ++ pending cr) ->
  NoDup (opened (enqueue_all us cr) ++ pending (enqueue_all us cr)).
Proof.
  unfold enqueue_all. revert cr.
  induction us as [| u us IH]; intros cr Hnd; cbn; [exact Hnd |].
  apply IH, enqueue_nodup, Hnd.
Qed.

Lemma enqueue_all_tidy pages us cr : tidy pages cr -> tidy pages (enqueue_all us cr).
Proof.
  intros (Hnd & Hinv & Hlen). unfold tidy, crawled.
  destruct (enqueue_all_fields us cr) as (_ & _ & Ho & Hi & _ & Hd).
  split; [now apply enqueue_all_nodup |].
  rewrite Ho, Hi, Hd. split; assumption.
Qed.

(** The crawl of the script keeps the bookkeeping in order and the
    dataset it had; when the first request in the queue is a page that is
    served, the crawl adds the record of that page. *)
Lemma crawl_tidy budget c pages w cr :
  web w = pages -> crawlers w !! c = Some cr -> tidy pages cr ->
  exists cr',
    crawlers (crawl budget c request_handler w) !! c = Some cr' /\
    tidy pages cr' /\
    dataset cr `prefix_of` dataset cr' /\
    (forall u q title content links,
       0 < budget -> pending cr = u :: q ->
       pages !! u = Some (Serves title content links) ->
       (dataset cr ++ [page_record u title content]) `prefix_of` dataset cr').
Proof.
  revert w cr. induction budget as [| budget IH]; intros w cr Hweb Hcr Htidy.
  { exists cr. split; [exact Hcr |]. split; [exact Htidy |]. split; [reflexivity |].
    intros; lia. }
  cbn [crawl]. rewrite Hcr. cbn [mbind option_bind].
  destruct (take_request cr) as [[u cr1] |] eqn:Htake.
  2: { exists cr. split; [exact Hcr |]. split; [exact Htidy |]. split; [reflexivity |].
       intros u q ? ? ? _ Hq _. unfold take_request in Htake. rewrite Hq in Htake.
       discriminate Htake. }
  apply take_request_fields in Htake as (Hopt & Hh & Hpend & Hopen & Hinv & Hfail & Hdata).
  destruct Htidy as (Hnd & Hcalled & Hlen).
  assert (NoDup (opened cr1 ++ pending cr1)) as Hnd1.
  { rewrite Hopen, <- app_assoc. cbn. rewrite <- Hpend. exact Hnd. }
  rewrite Hweb.
  destruct (pages !! u) as [[title content links | e] |] eqn:Hsite.
  - rewrite exec_eta.
    destruct (handler_on_served c title content links {| request := {| url := u |} |}
                (with_crawler c (invoke u) (with_crawler c (fun _ => cr1) w))) as [-> ->].
    cbn [is_returned].
    match goal with |- context [crawl budget c request_handler ?w'] =>
      destruct (IH w' (push (page_record u title content)
                         (enqueue_all links (invoke u cr1))))
        as (cr' & Hcr' & Htidy' & Hpre & _)
    end.
    + exact Hweb.
    + rewrite !lookup_with_crawler. cbn [crawlers write_log].
      rewrite !lookup_with_crawler, Hcr. reflexivity.
    + destruct (enqueue_all_tidy pages links (invoke u cr1)) as (Hnd2 & Hinv2 & Hlen2).
      { split; [exact Hnd1 |]. cbn. split.
        - unfold crawled in *. cbn. rewrite Hopen, filter_app, Hinv, Hcalled. f_equal.
          rewrite filter_cons_True by (rewrite Hsite; eauto). reflexivity.
        - rewrite length_app, Hdata, Hinv. cbn. lia. }
      split; [exact Hnd2 |]. split; [exact Hinv2 |].
      cbn. rewrite length_app. cbn.
      destruct (enqueue_all_fields links (invoke u cr1)) as (_ & _ & _ & Hi2 & _ & Hd2).
      rewrite Hd2, Hi2. cbn. rewrite length_app, Hdata, Hinv. cbn. lia.
    + assert ((dataset cr ++ [page_record u title content]) `prefix_of` dataset cr')
        as Hadded.
      { etrans; [| exact Hpre]. cbn.
        destruct (enqueue_all_fields links (invoke u cr1)) as (_ & _ & _ & _ & _ & ->).
        cbn. now rewrite Hdata. }
      exists cr'. split; [exact Hcr' |]. split; [exact Htidy' |].
      split; [etrans; [apply prefix_app_r; reflexivity | exact Hadded] |].
      intros u' q title' content' links' _ Hq Hserved.
      rewrite Hpend in Hq. injection Hq as <- _.
      rewrite Hsite in Hserved. injection Hserved as <- <- _. exact Hadded.
  - rewrite exec_eta.
    destruct (handler_on_broken c e {| request := {| url := u |} |}
                (with_crawler c (invoke u) (with_crawler c (fun _ => cr1) w))) as [-> ->].
    cbn [is_returned].
    match goal with |- context [crawl budget c request_handler ?w'] =>
      destruct (IH w' (fail u (invoke u cr1))) as (cr' & Hcr' & Htidy' & Hpre & _)
    end.
    + exact Hweb.
    + rewrite !lookup_with_crawler. cbn [crawlers write_log].
      rewrite !lookup_with_crawler, Hcr. reflexivity.
    + split; [exact Hnd1 |]. cbn. split.
      * unfold crawled in *. cbn. rewrite Hopen, filter_app, Hinv, Hcalled. f_equal.
        rewrite filter_cons_True by (rewrite Hsite; eauto). reflexivity.
      * rewrite length_app, Hdata, Hinv. cbn. lia.
    + exists cr'. split; [exact Hcr' |]. split; [exact Htidy' |].
      split; [etrans; [| exact Hpre]; cbn; now rewrite Hdata |].
      intros u' q title' content' links' _ Hq Hserved.
      rewrite Hpend in Hq. injection Hq as <- _.
      rewrite Hsite in Hserved. discriminate Hserved.
  - match goal with |- context [crawl budget c request_handler ?w'] =>
      destruct (IH w' (fail u cr1)) as (cr' & Hcr' & Htidy' & Hpre & _)
    end.
    + exact Hweb.
    + rewrite !lookup_with_crawler, Hcr. reflexivity.
    + split; [exact Hnd1 |]. cbn. split.
      * unfold crawled in *. cbn. rewrite Hopen, filter_app, Hinv, Hcalled.
        rewrite filter_cons_False by (rewrite Hsite; intros [? ?]; discriminate).
        now rewrite app_nil_r.
      * rewrite Hdata, Hinv. exact Hlen.
    + exists cr'. split; [exact Hcr' |]. split; [exact Htidy' |].
      split; [etrans; [| exact Hpre]; cbn; now rewrite Hdata |].
      intros u' q title' content' links' _ Hq Hserved.
      rewrite Hpend in Hq. injection Hq as <- _.
      rewrite Hsite in Hserved. discriminate Hserved.
Qed.
End CrawleeFacts.

(** ** The script on the library model *)

Example main_on_small_web :
  (Crawlee.opened <$> Crawlee.crawlers
     (final Crawlee.crawler_perform main (Crawlee.fresh Scenario.small_web))) =
    [["https://crawlee.dev"; "https://crawlee.dev/docs"; "https://crawlee.dev/blog"]] /\
  (Crawlee.invoked <$> Crawlee.crawlers
     (final Crawlee.crawler_perform main (Crawlee.fresh Scenario.small_web))) =
    [["https://crawlee.dev"; "https://crawlee.dev/docs"]] /\
  (Crawlee.dataset <$> Crawlee.crawlers
     (final Crawlee.crawler_perform main (Crawlee.fresh Scenario.small_web))) =
    [[page_record "https://crawlee.dev" "Crawlee" Scenario.long_content]].
Proof. repeat split; vm_compute; reflexivity. Qed.

Section OnTheModel.
Import Crawlee CrawleeFacts.

Lemma parse_crawler_kwargs : parse_kwargs crawler_kwargs = Some main_options.
Proof. vm_compute. reflexivity. Qed.

Lemma construct_on_fresh pages :
  crawler_perform (NewPlaywrightCrawler crawler_kwargs) (fresh pages) =
    (Returned (0 : CrawlerRef), add_crawler (new_crawler main_options) (fresh pages)).
Proof. cbn [crawler_perform]. rewrite parse_crawler_kwargs. reflexivity. Qed.

(** After each call of [main] the one crawler has the configuration it
    was built with. *)
Lemma main_worlds_configs pages :
  Forall (fun w => configs w = [main_options])
         (worlds crawler_perform main (fresh pages)).
Proof.
  unfold main. cbn [worlds mbind coro_bind bind call].
  rewrite construct_on_fresh.
  assert (configs (add_crawler (new_crawler main_options) (fresh pages)) = [main_options])
    as H1 by reflexivity.
  generalize dependent (add_crawler (new_crawler main_options) (fresh pages)).
  intros w1 H1. constructor; [exact H1 |].
  repeat match goal with
  | |- Forall _ (match crawler_perform ?o ?w with _ => _ end) =>
      let H := fresh "H" in
      pose proof (crawler_perform_configs o w ltac:(discriminate)) as H;
      destruct (crawler_perform o w) as [[? | ?] ?]; cbn [snd] in H;
      (constructor; [congruence |])
  | |- Forall _ [] => constructor
  end.
Qed.
Lemma tidy_seeded pages : tidy pages seeded.
Proof.
  split; [apply NoDup_singleton |]. split; [reflexivity | cbn; lia].
Qed.

Lemma crawl_started pages :
  exists cr,
    crawlers (crawl 5 0 request_handler (started pages)) !! 0 = Some cr /\
    tidy pages cr /\
    (forall title content links,
       pages !! "https://crawlee.dev" = Some (Serves title content links) ->
       [page_record "https://crawlee.dev" title content] `prefix_of` dataset cr).
Proof.
  destruct (crawl_tidy 5 0 pages (started pages) seeded eq_refl eq_refl (tidy_seeded pages))
    as (cr & Hcr & Htidy & _ & Hseed).
  exists cr. split; [exact Hcr |]. split; [exact Htidy |].
  intros title content links Hserved.
  apply (Hseed "https://crawlee.dev" [] title content links); [lia | reflexivity | exact Hserved].
Qed.

Lemma register_on_built pages :
  crawler_perform (RouterDefaultHandler 0 request_handler)
      (add_crawler (new_crawler main_options) (fresh pages)) =
    (Returned (), {| web := pages; crawlers := [wired]; files := ∅; log := [] |}).
Proof. reflexivity. Qed.

Lemma run_on_wired pages cr :
  crawlers (crawl 5 0 request_handler (started pages)) !! 0 = Some cr ->
  crawler_perform (Run 0 seeds)
      {| web := pages; crawlers := [wired]; files := ∅; log := [] |} =
    (Returned (statistics cr), crawl 5 0 request_handler (started pages)).
Proof.
  intros Hcr.
  change (crawler_perform (Run 0 seeds)
            {| web := pages; crawlers := [wired]; files := ∅; log := [] |})
    with (match crawlers (crawl 5 0 request_handler (started pages)) !! 0
                return outcome FinalStatistics with
          | Some cr' => Returned (statistics cr')
          | None => Raised ReferenceError
          end, crawl 5 0 request_handler (started pages)).
  now rewrite Hcr.
Qed.

Lemma export_on c path w cr :
  crawlers w !! c = Some cr ->
  crawler_perform (ExportData c path) w = (Returned (), write_file path (dataset cr) w).
Proof. intros Hcr. cbn [crawler_perform]. now rewrite Hcr. Qed.

Lemma get_data_on c w cr :
  crawlers w !! c = Some cr ->
  crawler_perform (GetData c) w = (Returned {| items := dataset cr |}, w).
Proof. intros Hcr. cbn [crawler_perform]. now rewrite Hcr. Qed.

Lemma log_info_on c msg w cr :
  crawlers w !! c = Some cr ->
  crawler_perform (CrawlerLogInfo c msg) w = (Returned (), write_log msg w).
Proof. intros Hcr. cbn [crawler_perform]. now rewrite Hcr. Qed.

(** The run of [main] in a fresh world: no call raises; the crawl starts
    from the seed with a budget of 5 requests; the dataset it leaves is
    exported and read back. *)
Lemma main_on_fresh pages cr :
  crawlers (crawl 5 0 request_handler (started pages)) !! 0 = Some cr ->
  exec crawler_perform main (fresh pages) =
    (Returned (),
     write_log (extracted {| items := dataset cr |})
       (write_file "results.json" (dataset cr)
          (crawl 5 0 request_handler (started pages))),
     [Ev (NewPlaywrightCrawler crawler_kwargs) (Returned (0 : CrawlerRef));
      Ev (RouterDefaultHandler 0 request_handler) (Returned ());
      Ev (Run 0 seeds) (Returned (statistics cr));
      Ev (ExportData 0 "results.json") (Returned ());
      Ev (GetData 0) (Returned {| items := dataset cr |});
      Ev (CrawlerLogInfo 0 (extracted {| items := dataset cr |})) (Returned ())]).
Proof.
  intros Hcr. unfold main.
  cbn [exec mbind coro_bind bind call].
  rewrite construct_on_fresh. cbv beta iota.
  rewrite register_on_built. cbv beta iota.
  fold seeds. rewrite (run_on_wired pages cr Hcr). cbv beta iota.
  rewrite (export_on 0 _ _ cr Hcr). cbv beta iota.
  rewrite (get_data_on 0 _ cr) by exact Hcr. cbv beta iota.
  rewrite (log_info_on 0 _ _ cr) by exact Hcr. cbv beta iota.
  reflexivity.
Qed.
End OnTheModel.

(** C4.  The handler submits at most one record per invocation, in any
    context; and on the library model the handler of the script is called
    once on each page the crawl opens: the pages it was called on are the
    crawled pages, none twice, and the dataset holds at most one record
    per call. *)
Theorem at_most_one_record_per_invocation :
  (forall (W : Type) (perform : forall o : ContextOp, W -> outcome (ContextRes o) * W)
          (context : PlaywrightCrawlingContext) (w : W),
     length (pushed (trace perform (request_handler context) w)) <= 1) /\
  (forall pages : gmap string Crawlee.Site,
     exists cr,
       Crawlee.crawlers (final Crawlee.crawler_perform main (Crawlee.fresh pages)) !! 0 =
         Some cr /\
       Crawlee.invoked cr = crawled pages cr /\
       NoDup (Crawlee.invoked cr) /\
       length (Crawlee.dataset cr) <= length (Crawlee.invoked cr)).
Proof.
  split.
  - intros W perform context w. apply pushed_at_most_one.
  - intros pages.
    destruct (crawl_started pages) as (cr & Hcr & (Hnd & Hinv & Hlen) & _).
    exists cr. unfold final. rewrite (main_on_fresh pages cr Hcr). cbn.
    split; [exact Hcr |]. split; [exact Hinv |]. split; [| exact Hlen].
    rewrite Hinv. unfold crawled. apply NoDup_filter.
    apply NoDup_app in Hnd as (Hopened & _). exact Hopened.
Qed.

(** C7.  The configuration is consumed once, at construction, and never
    changed afterwards: every run of [main] makes one constructor call,
    with the three keyword arguments; on the library model these become
    the configuration record of the crawler, which is the same after each
    of the six calls of [main], and no call of the handler changes the
    configuration record of any crawler. *)
Theorem configuration_never_mutated :
  (forall (W : Type) (perform : forall o : CrawlerOp, W -> outcome (CrawlerRes o) * W) (w : W),
     constructed (trace perform main w) = [crawler_kwargs]) /\
  Crawlee.parse_kwargs crawler_kwargs = Some main_options /\
  (forall pages : gmap string Crawlee.Site,
     length (worlds Crawlee.crawler_perform main (Crawlee.fresh pages)) = 6 /\
     Forall (fun w => configs w = [main_options])
            (worlds Crawlee.crawler_perform main (Crawlee.fresh pages))) /\
  (forall (c : CrawlerRef) (site : Crawlee.Site) (context : PlaywrightCrawlingContext)
          (w : Crawlee.World),
     Forall (fun w' => configs w' = configs w)
            (worlds (Crawlee.context_perform c site) (request_handler context) w)).
Proof.
  split; [| split; [| split]].
  - intros W perform w. destruct (main_runs perform w); reflexivity.
  - apply parse_crawler_kwargs.
  - intros pages. split; [| apply main_worlds_configs].
    destruct (crawl_started pages) as (cr & Hcr & _).
    rewrite worlds_length. unfold trace. now rewrite (main_on_fresh pages cr Hcr).
  - intros c site context w. apply CrawleeFacts.handler_configs.
Qed.







(** ** Further properties of the script *)

Lemma slice_to_substring n s : slice_to n s = String.substring 0 n s.
Proof.
  revert s. induction n as [| n IH]; intros [| c s]; cbn; try reflexivity.
  now rewrite IH.
Qed.

Lemma slice_to_slice_to m n s : slice_to m (slice_to n s) = slice_to (Nat.min m n) s.
Proof.
  revert n s. induction m as [| m IH]; intros [| n] [| c s]; cbn; try reflexivity.
  now rewrite IH.
Qed.

Lemma slice_to_empty n s : 0 < n -> slice_to n s = EmptyString <-> s = EmptyString.
Proof.
  intros Hn. destruct n as [| n]; [lia |].
  destruct s as [| c s]; cbn; split; intros H; try reflexivity; discriminate H.
Qed.

(** X1.  The handler submits no partial record: when the log call,
    [enqueue_links], [page.title] or [page.content] raises, nothing is
    submitted; a record that is submitted comes after these four calls, all
    of which returned, and is built from what the last two returned. *)
Theorem no_record_unless_page_was_read
    {W : Type} (perform : forall o : ContextOp, W -> outcome (ContextRes o) * W)
    (context : PlaywrightCrawlingContext) (w : W) :
  (reaches_submission (trace perform (request_handler context) w) = false ->
   pushed (trace perform (request_handler context) w) = []) /\
  (forall data, data ∈ pushed (trace perform (request_handler context) w) ->
   exists title content,
     take 4 (trace perform (request_handler context) w) =
       [Ev (LogInfo (processing context)) (Returned ());
        Ev EnqueueLinks (Returned ());
        Ev PageTitle (Returned title);
        Ev PageContent (Returned content)] /\
     data = page_record (url (request context)) title content).
Proof.
  split.
  - intros Hstop.
    destruct (handler_runs perform context w); cbn in Hstop; try discriminate Hstop;
      reflexivity.
  - intros data Hd.
    destruct (handler_runs perform context w); cbn in Hd;
      try (apply elem_of_nil in Hd; contradiction);
      apply list_elem_of_singleton in Hd as ->;
      exists title, content; split; reflexivity.
Qed.

Lemma no_record_unless_page_was_read_witness :
  pushed (trace Scenario.closed_page (request_handler Scenario.home) ()) = [] /\
  exists title content,
    take 4 (trace (Scenario.static_page "Crawlee" Scenario.long_content)
                  (request_handler Scenario.home) ()) =
      [Ev (LogInfo (processing Scenario.home)) (Returned ());
       Ev EnqueueLinks (Returned ());
       Ev PageTitle (Returned title);
       Ev PageContent (Returned content)] /\
    page_record "https://crawlee.dev" "Crawlee" Scenario.long_content =
      page_record "https://crawlee.dev" title content.
Proof.
  split.
  - apply (proj1 (no_record_unless_page_was_read
                    Scenario.closed_page Scenario.home ())).
    reflexivity.
  - apply (proj2 (no_record_unless_page_was_read
                    (Scenario.static_page "Crawlee" Scenario.long_content)
                    Scenario.home ())).
    vm_compute. constructor.
Defined.

(** X2.  Neither coroutine stops early on a result: a run of [main] makes
    all six calls unless its last call raised, and an invocation of the
    handler makes all five calls unless its last call raised, whatever the
    values the calls return (statistics, data read back, title, content). *)
Theorem runs_stop_only_on_exceptions :
  (forall (W : Type) (perform : forall o : CrawlerOp, W -> outcome (CrawlerRes o) * W)
          (w : W),
     steps (trace perform main w) = [Construct; Register; RunCrawl; Export; ReadBack; Report]
     \/ exists ev, last (trace perform main w) = Some ev /\ ev_returned ev = false) /\
  (forall (W : Type) (perform : forall o : ContextOp, W -> outcome (ContextRes o) * W)
          (context : PlaywrightCrawlingContext) (w : W),
     (exists title content,
        (ev_op <$> trace perform (request_handler context) w) =
          [LogInfo (processing context); EnqueueLinks; PageTitle; PageContent;
           PushData (page_record (url (request context)) title content)])
     \/ exists ev, last (trace perform (request_handler context) w) = Some ev /\
                   ev_returned ev = false).
Proof.
  split.
  - intros W perform w.
    destruct (main_runs perform w);
      first [left; reflexivity | right; eexists; split; reflexivity].
  - intros W perform context w.
    destruct (handler_runs perform context w);
      first [right; eexists; split; reflexivity
            | left; exists title, content; reflexivity].
Qed.

(** X3.  [main] works on one crawler: every call after the construction
    is made on the crawler the constructor returned. *)
Theorem main_uses_the_crawler_it_built
    {W : Type} (perform : forall o : CrawlerOp, W -> outcome (CrawlerRes o) * W) (w : W)
    (i : nat) (ev : event CrawlerSig) (c : CrawlerRef) :
  trace perform main w !! i = Some ev ->
  receiver (ev_op ev) = Some c ->
  built (trace perform main w) = [c].
Proof.
  intros Hi Hc.
  destruct (main_runs perform w);
    destruct i as [| [| [| [| [| [| i]]]]]]; cbn in Hi; try discriminate Hi;
    injection Hi as <-; cbn in Hc; try discriminate Hc;
    injection Hc as <-; reflexivity.
Qed.

Lemma main_uses_the_crawler_it_built_witness :
  built (trace Crawlee.crawler_perform main (Crawlee.fresh Scenario.small_web)) = [0].
Proof.
  apply (main_uses_the_crawler_it_built Crawlee.crawler_perform
           (Crawlee.fresh Scenario.small_web) 3
           (Ev (ExportData 0 "results.json") (Returned ())) 0).
  - vm_compute. reflexivity.
  - reflexivity.
Defined.

(** X4.  [main] reports what it read back: the messages it logs are, one
    for one, the text Extracted data: followed by the items of the pages
    that [get_data] returned; nothing is logged when [get_data] did not
    return. *)
Theorem main_reports_the_data_read_back
    {W : Type} (perform : forall o : CrawlerOp, W -> outcome (CrawlerRes o) * W) (w : W) :
  reported (trace perform main w) =
    (fun data => [FLit "Extracted data: "; FItems (items data)])
      <$> read_back (trace perform main w).
Proof. destruct (main_runs perform w); reflexivity. Qed.

(** X5.  The content field of a submitted record is empty exactly when the
    page returned an empty content. *)
Theorem content_field_empty_iff_page_empty
    {W : Type} (perform : forall o : ContextOp, W -> outcome (ContextRes o) * W)
    (context : PlaywrightCrawlingContext) (w : W) (data : gmap string string) :
  data ∈ pushed (trace perform (request_handler context) w) ->
  exists content,
    Ev PageContent (Returned content) ∈ trace perform (request_handler context) w /\
    (data !! "content" = Some EmptyString <-> content = EmptyString).
Proof.
  intros Hd.
  destruct (pushed_record perform context w data Hd) as (title & content & _ & Hc & ->).
  exists content. split; [exact Hc |].
  rewrite page_record_content. split.
  - intros [= H]. apply (slice_to_empty 100 content); [lia | exact H].
  - intros ->. reflexivity.
Qed.

Lemma content_field_empty_iff_page_empty_witness :
  exists content,
    Ev PageContent (Returned content) ∈
      trace (Scenario.static_page "Crawlee" EmptyString) (request_handler Scenario.home) () /\
    (page_record "https://crawlee.dev" "Crawlee" EmptyString !! "content" = Some EmptyString
     <-> content = EmptyString).
Proof.
  apply (content_field_empty_iff_page_empty
           (Scenario.static_page "Crawlee" EmptyString) Scenario.home ()
           (page_record "https://crawlee.dev" "Crawlee" EmptyString)).
  vm_compute. constructor.
Defined.

(** X6.  The content field of a submitted record is the substring of
    length 100 from position 0 of the content the page returned, and
    cutting it to 100 characters again changes nothing. *)
Theorem content_field_is_substring
    {W : Type} (perform : forall o : ContextOp, W -> outcome (ContextRes o) * W)
    (context : PlaywrightCrawlingContext) (w : W) (data : gmap string string) :
  data ∈ pushed (trace perform (request_handler context) w) ->
  exists content field,
    Ev PageContent (Returned content) ∈ trace perform (request_handler context) w /\
    data !! "content" = Some field /\
    field = String.substring 0 100 content /\
    slice_to 100 field = field.
Proof.
  intros Hd.
  destruct (pushed_record perform context w data Hd) as (title & content & _ & Hc & ->).
  exists content, (slice_to 100 content).
  split; [exact Hc |].
  split; [apply page_record_content |].
  split; [apply slice_to_substring |].
  now rewrite slice_to_slice_to.
Qed.

Lemma content_field_is_substring_witness :
  exists content field,
    Ev PageContent (Returned content) ∈
      trace (Scenario.static_page "Crawlee" Scenario.long_content)
            (request_handler Scenario.home) () /\
    page_record "https://crawlee.dev" "Crawlee" Scenario.long_content !! "content" =
      Some field /\
    field = String.substring 0 100 content /\
    slice_to 100 field = field.
Proof.
  apply (content_field_is_substring
           (Scenario.static_page "Crawlee" Scenario.long_content) Scenario.home ()
           (page_record "https://crawlee.dev" "Crawlee" Scenario.long_content)).
  vm_compute. constructor.
Defined.
